(** * fuffr.js: the bridge SDK of the Fuffr case

    A shallow embedding of [src/lib/fuffr.js]: the callback registry
    ([callbackIdCounter], [callbackTable]), the command strings built by the
    public functions, and the transport [fuffr.internal.callNative].

    - JavaScript values are an inductive type [value]; numbers are the
      integers (identifiers, bit masks, counts and status codes are), so
      fractions, NaN and the loss of precision above 2^53 are outside the
      model.
    - The two module variables form the record [state]; every function is a
      computation in the monad [M], which threads the state, collects the
      observable events (requests handed to the host, calls of page
      functions) and propagates a thrown [TypeError].
    - Page functions (gesture callbacks, [win], [fail]) are opaque: calling
      one is recorded as an event.  Each such call is the last action of
      the function that makes it, so whatever the page function does to the
      module (it may call [addGesture] or [removeGesture] itself) is a
      later entry of a history ([run]), not part of the call that
      dispatched it.  *)

From Stdlib Require Import ZArith Ascii DecimalString DecimalZ DecimalPos.
From stdpp Require Import gmap strings list fin_maps.

#[local] Set Warnings "-register-all".
#[local] Open Scope Z_scope.

(** ** Values *)

(** A function object: its identity and its source text (what
    [Function.prototype.toString] returns). *)
Record func := Func { fn_id : nat; fn_source : string }.

Inductive value :=
| VUndefined
| VNull
| VBool (b : bool)
| VNumber (z : Z)
| VString (s : string)
| VFunction (f : func)
| VObject (props : gmap string value)
| VArray (elems : list value).

(** Decimal rendering of an integer number, as [Number.prototype.toString]
    prints it: ["0"], ["15"], ["-3"]. *)
Definition number_to_string (z : Z) : string :=
  NilZero.string_of_int (Z.to_int z).

(** [ToString], the conversion applied by [+] when the other operand is a
    string.  Objects are plain data objects, which inherit
    [Object.prototype.toString]; an array joins its elements with commas,
    printing [null] and [undefined] as the empty string. *)
Fixpoint to_string (v : value) : string :=
  match v with
  | VUndefined => "undefined"
  | VNull => "null"
  | VBool true => "true"
  | VBool false => "false"
  | VNumber z => number_to_string z
  | VString s => s
  | VFunction f => fn_source f
  | VObject _ => "[object Object]"
  | VArray l =>
      String.concat ","
        (map (fun e => match e with
                       | VUndefined | VNull => ""
                       | _ => to_string e
                       end) l)
  end.

(** [ToBoolean]: the falsy values are [undefined], [null], [false], [0] and
    the empty string. *)
Definition truthy (v : value) : bool :=
  match v with
  | VUndefined | VNull => false
  | VBool b => b
  | VNumber z => negb (z =? 0)
  | VString s => negb (String.eqb s "")
  | VFunction _ | VObject _ | VArray _ => true
  end.

Definition typeof (v : value) : string :=
  match v with
  | VUndefined => "undefined"
  | VNull => "object"
  | VBool _ => "boolean"
  | VNumber _ => "number"
  | VString _ => "string"
  | VFunction _ => "function"
  | VObject _ | VArray _ => "object"
  end.

(** [v.k] for a value [v] that is neither [undefined] nor [null] and a name
    [k] that no built-in prototype defines for it: an own property of a
    plain object, and [undefined] otherwise. *)
Definition get_prop (v : value) (k : string) : value :=
  match v with
  | VObject o => default VUndefined (o !! k)
  | _ => VUndefined
  end.

(** [args[i]] on the [arguments] object. *)
Definition arg (args : list value) (i : nat) : value :=
  default VUndefined (args !! i).

(** ** Constants *)

Definition FFRSideTop : Z := 1.
Definition FFRSideLeft : Z := 4.

Definition FFRGesturePan : Z := 1.
Definition FFRGesturePinch : Z := 2.
Definition FFRGestureRotate : Z := 3.
Definition FFRGestureTap : Z := 4.
Definition FFRGestureDoubleTap : Z := 5.
Definition FFRGestureLongPress : Z := 6.
Definition FFRGestureSwipeLeft : Z := 7.
Definition FFRGestureSwipeRight : Z := 8.
Definition FFRGestureSwipeUp : Z := 9.
Definition FFRGestureSwipeDown : Z := 10.

Definition FFRGestureRecognizerStateUnknown : Z := 0.
Definition FFRGestureRecognizerStateBegan : Z := 1.
Definition FFRGestureRecognizerStateChanged : Z := 2.
Definition FFRGestureRecognizerStateEnded : Z := 3.

(** ** State, events and the monad *)

(** The variables hidden in the closure.  [callbackTable] is a JavaScript
    object indexed by callback identifiers; an integer key stands for the
    property named by its decimal string ([number_to_string] is injective,
    and [Object.prototype] has no such property). *)
Record state := State {
  callbackIdCounter : Z;
  callbackTable : gmap Z value
}.

Definition initial : state :=
  {| callbackIdCounter := 0; callbackTable := ∅ |}.

(** The [XMLHttpRequest] built by [callNative]: the arguments of [open] and
    the two functions captured by its [onreadystatechange] handler. *)
Record request := Request {
  req_method : string;
  req_url : string;
  req_win : value;
  req_fail : value
}.

Inductive event :=
| Sent (r : request)
| Called (f : func) (args : list value).

Inductive error := TypeError.

Inductive completion (A : Type) :=
| Return (a : A)
| Throw (e : error).
Arguments Return {A} a.
Arguments Throw {A} e.

Definition M (A : Type) : Type := state → completion A * state * list event.

#[global] Instance M_ret : MRet M := λ A a st, (Return a, st, []).

#[global] Instance M_bind : MBind M := λ A B k c st,
  match c st with
  | (Return a, st1, t1) =>
      match k a st1 with
      | (r, st2, t2) => (r, st2, t1 ++ t2)
      end
  | (Throw e, st1, t1) => (Throw e, st1, t1)
  end.

Definition emit (e : event) : M unit := λ st, (Return (), st, [e]).

Definition throw {A} (e : error) : M A := λ st, (Throw e, st, []).

(** [f(args)] where [f] is any value: calling what is not a function throws
    a [TypeError]. *)
Definition call_value (f : value) (args : list value) : M unit :=
  match f with
  | VFunction g => emit (Called g args)
  | _ => throw TypeError
  end.

(** [f.apply(thisArg, args)]: on a function this is
    [Function.prototype.apply]; a plain object may carry an own property
    [apply]; nothing else has one. *)
Definition apply_method (f thisArg : value) (args : list value) : M unit :=
  match f with
  | VFunction g => emit (Called g args)
  | VObject o => call_value (default VUndefined (o !! "apply"))
                            [thisArg; VArray args]
  | _ => throw TypeError
  end.

(** ** The functions of [fuffr.js] *)

(** [++callbackIdCounter] *)
Definition incr_callbackIdCounter : M Z := λ st,
  let n := callbackIdCounter st + 1 in
  (Return n,
   {| callbackIdCounter := n; callbackTable := callbackTable st |}, []).

(** [callbackTable[id] = v] *)
Definition table_store (id : Z) (v : value) : M unit := λ st,
  (Return (),
   {| callbackIdCounter := callbackIdCounter st;
      callbackTable := <[id := v]> (callbackTable st) |}, []).

(** [delete callbackTable[id]] *)
Definition table_delete (id : Z) : M unit := λ st,
  (Return (),
   {| callbackIdCounter := callbackIdCounter st;
      callbackTable := delete id (callbackTable st) |}, []).

(** [callbackTable[id]] *)
Definition table_load (id : Z) : M value := λ st,
  (Return (default VUndefined (callbackTable st !! id)), st, []).

(** [fuffr.internal.callNative]: opens a [get] request on
    ['fuffr-bridge@' + command], installs the handler and sends it. *)
Definition callNative (command : string) (win fail : value) : M unit :=
  emit (Sent {| req_method := "get";
                req_url := "fuffr-bridge@" +:+ command;
                req_win := win;
                req_fail := fail |}).

(** The [onreadystatechange] handler installed by [callNative], run by the
    host with the request's [readyState], [status] and [responseText]. *)
Definition onreadystatechange (r : request)
    (readyState status : Z) (responseText : string) : M unit :=
  if readyState =? 4 then
    if status =? 200 then
      if truthy (req_win r)
      then call_value (req_win r) [VString responseText]
      else mret ()
    else
      if truthy (req_fail r)
      then call_value (req_fail r) [VNumber status]
      else mret ()
  else mret ().

Definition enableSides (sides touchesPerSide win fail : value) : M unit :=
  callNative
    ("enableSides@" +:+ to_string sides +:+ "@"
       +:+ to_string touchesPerSide +:+ "@")
    win fail.

Definition log (message win fail : value) : M unit :=
  callNative ("consoleLog@" +:+ to_string message +:+ "@") win fail.

Definition updateFirmware (win fail : value) : M unit :=
  callNative "updateFirmware@" win fail.

(** The text appended for the gesture parameters, when [params] is truthy:
    the duration field, then the distance field. *)
Definition duration_param (params : value) : string :=
  if truthy (get_prop params "maximumDuration")
  then "maximumDistance@" +:+ to_string (get_prop params "maximumDuration")
         +:+ "@"
  else if truthy (get_prop params "minimumDuration")
  then "minumumDistance@" +:+ to_string (get_prop params "minimumDuration")
         +:+ "@"
  else "".

Definition distance_param (params : value) : string :=
  if truthy (get_prop params "maximumDistance")
  then "maximumDistance@" +:+ to_string (get_prop params "maximumDistance")
         +:+ "@"
  else if truthy (get_prop params "minimumDistance")
  then "minumumDistance@" +:+ to_string (get_prop params "minimumDistance")
         +:+ "@"
  else "".

Definition gesture_params (params : value) : string :=
  if truthy params
  then duration_param params +:+ distance_param params
  else "".

(** [fuffr.addGesture], called with the argument list [args]. *)
Definition addGesture (args : list value) : M value :=
  let gestureType := arg args 0 in
  let sides := arg args 1 in
  let '(params, callback) :=
    if (length args =? 4)%nat then (arg args 2, arg args 3)
    else if (length args =? 3)%nat then (VNull, arg args 2)
    else (VNull, VNull) in
  if negb (truthy callback) && negb (String.eqb (typeof callback) "function")
  then mret VUndefined
  else
    gestureId ← incr_callbackIdCounter;
    table_store gestureId callback;;
    let message :=
      "addGesture@" +:+ to_string gestureType +:+ "@" +:+ to_string sides
        +:+ "@" +:+ number_to_string gestureId +:+ "@" in
    let message := message +:+ gesture_params params in
    callNative message VUndefined VUndefined;;
    mret (VNumber gestureId).

(** The values of the variables [callback] and [params] of [addGesture]
    once the argument list has been taken apart. *)
Definition callback_of (args : list value) : value :=
  if (length args =? 4)%nat then arg args 3
  else if (length args =? 3)%nat then arg args 2
  else VNull.

Definition params_of (args : list value) : value :=
  if (length args =? 4)%nat then arg args 2 else VNull.

Definition addCallback (callbackFun : value) : M Z :=
  callbackId ← incr_callbackIdCounter;
  table_store callbackId callbackFun;;
  mret callbackId.

Definition removeCallback (gestureId : Z) : M unit :=
  table_delete gestureId.

Definition removeGesture (gestureId : Z) : M unit :=
  removeCallback gestureId;;
  callNative ("removeGesture@" +:+ number_to_string gestureId +:+ "@")
    VUndefined VUndefined.

Definition removeAllGestures : M unit :=
  callNative "removeAllGestures@" VUndefined VUndefined.

(** [fuffr.internal.performCallback], called by the host with the
    identifier followed by the values [rest]. *)
Definition performCallback (gestureId : Z) (rest : list value) : M unit :=
  let arguments := VNumber gestureId :: rest in
  callbackFun ← table_load gestureId;
  if truthy callbackFun then
    let args := arguments in
    let args := tail args in
    apply_method callbackFun VNull args
  else mret ().

(** The listener of [DOMContentLoaded]. *)
Definition domLoaded : M unit :=
  callNative "domLoaded@" VUndefined VUndefined.

(** ** Sequences of calls *)

(** What the page and the host can do to the module. *)
Inductive call :=
| CallEnableSides (sides touchesPerSide win fail : value)
| CallLog (message win fail : value)
| CallUpdateFirmware (win fail : value)
| CallAddGesture (args : list value)
| CallRemoveGesture (gestureId : Z)
| CallRemoveAllGestures
| CallAddCallback (callbackFun : value)
| CallRemoveCallback (gestureId : Z)
| CallPerformCallback (gestureId : Z) (rest : list value)
| CallReadyStateChange (r : request) (readyState status : Z)
    (responseText : string)
| CallDomLoaded.

Definition exec (c : call) : M value :=
  match c with
  | CallEnableSides s n w f => enableSides s n w f;; mret VUndefined
  | CallLog m w f => log m w f;; mret VUndefined
  | CallUpdateFirmware w f => updateFirmware w f;; mret VUndefined
  | CallAddGesture args => addGesture args
  | CallRemoveGesture id => removeGesture id;; mret VUndefined
  | CallRemoveAllGestures => removeAllGestures;; mret VUndefined
  | CallAddCallback f => id ← addCallback f; mret (VNumber id)
  | CallRemoveCallback id => removeCallback id;; mret VUndefined
  | CallPerformCallback id rest => performCallback id rest;; mret VUndefined
  | CallReadyStateChange r rs s t =>
      onreadystatechange r rs s t;; mret VUndefined
  | CallDomLoaded => domLoaded;; mret VUndefined
  end.

(** One entry of a history: the call, how it completed, and the state it
    left.  A call that throws does not stop the page: the next call starts
    from the state reached at the throw. *)
Record step := Step {
  step_call : call;
  step_result : completion value;
  step_state : state;
  step_trace : list event
}.

Definition take_step (c : call) (st : state) : step :=
  match exec c st with
  | (r, st', t) =>
      {| step_call := c; step_result := r; step_state := st';
         step_trace := t |}
  end.

Fixpoint run (cs : list call) (st : state) : list step :=
  match cs with
  | [] => []
  | c :: cs' =>
      let s := take_step c st in
      s :: run cs' (step_state s)
  end.

(** The identifier a step hands out, when it is an allocation that
    returned. *)
Definition issued (s : step) : option Z :=
  match step_call s, step_result s with
  | CallAddGesture _, Return (VNumber id) => Some id
  | CallAddCallback _, Return (VNumber id) => Some id
  | _, _ => None
  end.

(** The value an allocating call stores under the identifier it returns. *)
Definition registered_handler (c : call) : value :=
  match c with
  | CallAddGesture args => callback_of args
  | CallAddCallback callbackFun => callbackFun
  | _ => VUndefined
  end.

(** Every identifier bound in the table has been handed out. *)
Definition keys_issued (st : state) : Prop :=
  ∀ (k : Z) (v : value),
    callbackTable st !! k = Some v → k ≤ callbackIdCounter st.

(** ** The event hooks *)

(** The default members of [fuffr.on], which the host calls and the page
    may replace. *)
Definition on_connected : M unit := mret ().

Definition on_disconnected : M unit :=
  log (VString "fuffr disconnected") VUndefined VUndefined.

Definition on_touchesBegan (touches : value) : M unit := mret ().

Definition on_touchesMoved (touches : value) : M unit := mret ().

Definition on_touchesEnded (touches : value) : M unit := mret ().

Inductive hook :=
| HookConnected
| HookDisconnected
| HookTouchesBegan (touches : value)
| HookTouchesMoved (touches : value)
| HookTouchesEnded (touches : value).

Definition fire (h : hook) : M unit :=
  match h with
  | HookConnected => on_connected
  | HookDisconnected => on_disconnected
  | HookTouchesBegan touches => on_touchesBegan touches
  | HookTouchesMoved touches => on_touchesMoved touches
  | HookTouchesEnded touches => on_touchesEnded touches
  end.

(** ** Predicates of the statements *)







(** The requests among the events of a trace. *)
Definition requests (t : list event) : list request :=
  omap (λ e, match e with Sent r => Some r | Called _ _ => None end) t.



(** The call removes the identifier [k] from the table. *)
Definition removes (k : Z) (c : call) : bool :=
  match c with
  | CallRemoveGesture id | CallRemoveCallback id => bool_decide (id = k)
  | _ => false
  end.


(** * Properties *)

(** ** Basic facts about the model *)


Example number_to_string_examples :
  number_to_string 0 = "0" ∧ number_to_string 15 = "15"
  ∧ number_to_string 200 = "200" ∧ number_to_string (-3) = "-3".
Proof. repeat split. Qed.

(** What is falsy is never a function. *)
Lemma falsy_not_function (v : value) :
  truthy v = false → typeof v ≠ "function".
Proof. destruct v; cbn; intros; discriminate. Qed.

(** The guard of [addGesture] reduces to the truthiness test: its second
    conjunct never changes the outcome. *)
Lemma addGesture_guard (v : value) :
  negb (truthy v) && negb (String.eqb (typeof v) "function") = negb (truthy v).
Proof. destruct v; cbn; rewrite ?andb_true_r, ?andb_false_r; reflexivity. Qed.

Lemma addGesture_rejects (args : list value) (st : state) :
  truthy (callback_of args) = false →
  addGesture args st = (Return VUndefined, st, []).
Proof.
  unfold addGesture, callback_of. intros F.
  destruct (length args =? 4)%nat.
  - rewrite addGesture_guard, F. reflexivity.
  - destruct (length args =? 3)%nat.
    + rewrite addGesture_guard, F. reflexivity.
    + reflexivity.
Qed.

Lemma addGesture_accepts (args : list value) (st : state) :
  truthy (callback_of args) = true →
  addGesture args st =
    (Return (VNumber (callbackIdCounter st + 1)),
     {| callbackIdCounter := callbackIdCounter st + 1;
        callbackTable :=
          <[callbackIdCounter st + 1 := callback_of args]>
            (callbackTable st) |},
     [Sent {| req_method := "get";
              req_url :=
                "fuffr-bridge@" +:+
                (("addGesture@" +:+ to_string (arg args 0) +:+ "@"
                    +:+ to_string (arg args 1) +:+ "@"
                    +:+ number_to_string (callbackIdCounter st + 1) +:+ "@")
                   +:+ gesture_params (params_of args));
              req_win := VUndefined;
              req_fail := VUndefined |}]).
Proof.
  unfold addGesture, callback_of, params_of. intros T.
  destruct (length args =? 4)%nat.
  - rewrite addGesture_guard, T. reflexivity.
  - destruct (length args =? 3)%nat.
    + rewrite addGesture_guard, T. reflexivity.
    + discriminate.
Qed.

(** ** The transport *)



(** C8: [callNative] hands the host one request for
    ['fuffr-bridge@' + command].  When that request completes
    ([readyState] 4), status 200 calls [win] with the response text and any
    other status calls [fail] with the status; a callback left out
    ([undefined]) makes the same outcome pass without a call and without an
    exception.  The module state is not touched. *)
Theorem callNative_completion (command : string) (win fail : value)
    (st : state) :
  ∃ r : request,
    callNative command win fail st = (Return (), st, [Sent r])
    ∧ req_method r = "get"
    ∧ req_url r = "fuffr-bridge@" +:+ command
    ∧ (∀ (w : func) (text : string) (st' : state),
         win = VFunction w →
         onreadystatechange r 4 200 text st' =
           (Return (), st', [Called w [VString text]]))
    ∧ (∀ (f : func) (status : Z) (text : string) (st' : state),
         fail = VFunction f → status ≠ 200 →
         onreadystatechange r 4 status text st' =
           (Return (), st', [Called f [VNumber status]]))
    ∧ (∀ (text : string) (st' : state),
         win = VUndefined →
         onreadystatechange r 4 200 text st' = (Return (), st', []))
    ∧ (∀ (status : Z) (text : string) (st' : state),
         fail = VUndefined → status ≠ 200 →
         onreadystatechange r 4 status text st' = (Return (), st', [])).
Proof.
  eexists. split; [reflexivity|]. cbn.
  split; [reflexivity|]. split; [reflexivity|].
  unfold onreadystatechange; cbn.
  repeat split.
  - intros w text st' ->. reflexivity.
  - intros f status text st' -> Hs.
    destruct (Z.eqb_spec status 200) as [|_]; [contradiction|]. reflexivity.
  - intros text st' ->. reflexivity.
  - intros status text st' -> Hs.
    destruct (Z.eqb_spec status 200) as [|_]; [contradiction|]. reflexivity.
Qed.

Lemma callNative_completion_witness :
  ∃ r : request,
    callNative "updateFirmware@" (VFunction (Func 1 "function (t) {}"))
      VUndefined initial = (Return (), initial, [Sent r])
    ∧ req_url r = "fuffr-bridge@updateFirmware@"
    ∧ onreadystatechange r 4 200 "ok" initial =
        (Return (), initial,
         [Called (Func 1 "function (t) {}") [VString "ok"]])
    ∧ onreadystatechange r 4 404 "" initial = (Return (), initial, []).
Proof.
  destruct (callNative_completion "updateFirmware@"
              (VFunction (Func 1 "function (t) {}")) VUndefined initial)
    as (r & Hsend & _ & Hurl & Hwin & _ & _ & Hnofail).
  exists r. split; [exact Hsend|]. split; [exact Hurl|]. split.
  - exact (Hwin _ "ok"%string initial eq_refl).
  - apply Hnofail; [reflexivity | lia].
Defined.

(** ** The callback registry *)

Lemma performCallback_function (st : state) (gestureId : Z) (h : func)
    (rest : list value) :
  callbackTable st !! gestureId = Some (VFunction h) →
  performCallback gestureId rest st = (Return (), st, [Called h rest]).
Proof.
  intros H. unfold performCallback, table_load, mbind, M_bind.
  rewrite H. reflexivity.
Qed.

Lemma performCallback_absent (st : state) (gestureId : Z)
    (rest : list value) :
  callbackTable st !! gestureId = None →
  performCallback gestureId rest st = (Return (), st, []).
Proof.
  intros H. unfold performCallback, table_load, mbind, M_bind.
  rewrite H. reflexivity.
Qed.

(** A stored value that is truthy but has no [apply] makes the dispatch
    throw. *)
Lemma performCallback_not_callable (st : state) (gestureId : Z) (v : value)
    (rest : list value) :
  callbackTable st !! gestureId = Some v →
  truthy v = true →
  match v with VFunction _ | VObject _ => False | _ => True end →
  performCallback gestureId rest st = (Throw TypeError, st, []).
Proof.
  intros H T N. unfold performCallback, table_load, mbind, M_bind.
  rewrite H. cbn. rewrite T. destruct v; try reflexivity; contradiction.
Qed.

(** C4: dispatching an identifier bound to a function [h] calls [h] once,
    with the values that follow the identifier and without the identifier;
    dispatching an identifier that is not in the table does nothing and
    throws nothing.  Either way [performCallback] itself leaves the counter
    and the table unchanged. *)
Theorem performCallback_dispatch (st : state) (gestureId : Z) :
  (∀ (h : func) (rest : list value),
     callbackTable st !! gestureId = Some (VFunction h) →
     performCallback gestureId rest st = (Return (), st, [Called h rest]))
  ∧ (∀ rest : list value,
       callbackTable st !! gestureId = None →
       performCallback gestureId rest st = (Return (), st, [])).
Proof.
  split.
  - intros h rest. apply performCallback_function.
  - intros rest. apply performCallback_absent.
Qed.

Lemma performCallback_dispatch_witness :
  let h := Func 3 "function (a, b) {}" in
  let st := {| callbackIdCounter := 1;
               callbackTable := {[ 1 := VFunction h ]} |} in
  performCallback 1 [VNumber 10; VString "b"] st =
    (Return (), st, [Called h [VNumber 10; VString "b"]])
  ∧ performCallback 2 [VNumber 10; VString "b"] st = (Return (), st, []).
Proof.
  intros h st. split.
  - exact (proj1 (performCallback_dispatch st 1) h _ eq_refl).
  - exact (proj2 (performCallback_dispatch st 2) _ eq_refl).
Defined.

(** C5: [removeAllGestures] sends the one command ['removeAllGestures@'] and
    leaves the counter and the table as they were, so every handler that
    was registered is still called by a later dispatch. *)
Theorem removeAllGestures_keeps_table (st : state) :
  removeAllGestures st =
    (Return (), st,
     [Sent (Request "get" "fuffr-bridge@removeAllGestures@"
              VUndefined VUndefined)])
  ∧ (∀ (gestureId : Z) (h : func) (rest : list value),
       callbackTable st !! gestureId = Some (VFunction h) →
       performCallback gestureId rest (removeAllGestures st).1.2 =
         (Return (), st, [Called h rest])).
Proof.
  split; [reflexivity|]. intros id h rest H. cbn.
  exact (performCallback_function st id h rest H).
Qed.

Lemma removeAllGestures_keeps_table_witness :
  let h := Func 3 "function (state) {}" in
  let st := {| callbackIdCounter := 1;
               callbackTable := {[ 1 := VFunction h ]} |} in
  performCallback 1 [VNumber 3] (removeAllGestures st).1.2 =
    (Return (), st, [Called h [VNumber 3]]).
Proof.
  intros h st.
  exact (proj2 (removeAllGestures_keeps_table st) 1 h _ eq_refl).
Defined.

(** ** Adding a gesture *)

Lemma append_assoc (a b c : string) : (a +:+ b) +:+ c = a +:+ (b +:+ c).
Proof.
  induction a as [|x a IH]; [reflexivity|].
  change (String x ((a +:+ b) +:+ c) = String x (a +:+ (b +:+ c))).
  congruence.
Qed.

Lemma append_empty_r (a : string) : a +:+ "" = a.
Proof.
  induction a as [|x a IH]; [reflexivity|].
  change (String x (a +:+ "") = String x a). congruence.
Qed.

(** C9: from the fresh registry, [addGesture(FFRGestureTap, FFRSideLeft, cb)]
    returns 1 and sends ['addGesture@4@4@1@'], and dispatching 1 with no
    further value then calls [cb] with no argument. *)
Theorem addGesture_tap_left_scenario (cb : func) :
  FFRGestureTap = 4 ∧ FFRSideLeft = 4
  ∧ addGesture [VNumber FFRGestureTap; VNumber FFRSideLeft; VFunction cb]
      initial =
      (Return (VNumber 1),
       {| callbackIdCounter := 1; callbackTable := {[ 1 := VFunction cb ]} |},
       [Sent (Request "get" "fuffr-bridge@addGesture@4@4@1@"
                VUndefined VUndefined)])
  ∧ performCallback 1 []
      (addGesture [VNumber FFRGestureTap; VNumber FFRSideLeft; VFunction cb]
         initial).1.2 =
      (Return (),
       {| callbackIdCounter := 1; callbackTable := {[ 1 := VFunction cb ]} |},
       [Called cb []]).
Proof. repeat split. Qed.

(** C1, at an input where the code departs from it: a number in the
    callback position is not a function, yet [addGesture] returns a fresh
    identifier, stores the number in the table, advances the counter and
    sends the command; the host's later dispatch for that identifier throws
    a [TypeError]. *)
Theorem addGesture_registers_non_function :
  typeof (VNumber 5) ≠ "function"
  ∧ addGesture [VNumber FFRGesturePan; VNumber FFRSideTop; VNumber 5]
      initial =
      (Return (VNumber 1),
       {| callbackIdCounter := 1; callbackTable := {[ 1 := VNumber 5 ]} |},
       [Sent (Request "get" "fuffr-bridge@addGesture@1@1@1@"
                VUndefined VUndefined)])
  ∧ performCallback 1 []
      {| callbackIdCounter := 1; callbackTable := {[ 1 := VNumber 5 ]} |} =
      (Throw TypeError,
       {| callbackIdCounter := 1; callbackTable := {[ 1 := VNumber 5 ]} |},
       []).
Proof. repeat split. discriminate. Qed.

(** What does hold of the guard: a call with fewer than three arguments, or
    more than four, or with a falsy value in the callback position, returns
    [undefined] and has no effect. *)
Lemma addGesture_without_callback (args : list value) (st : state) :
  (length args < 3)%nat ∨ (4 < length args)%nat
  ∨ truthy (callback_of args) = false →
  addGesture args st = (Return VUndefined, st, []).
Proof.
  intros H. apply addGesture_rejects.
  destruct H as [H | [H | H]]; [| | exact H]; unfold callback_of.
  - destruct (Nat.eqb_spec (length args) 4); [lia|].
    destruct (Nat.eqb_spec (length args) 3); [lia|]. reflexivity.
  - destruct (Nat.eqb_spec (length args) 4); [lia|].
    destruct (Nat.eqb_spec (length args) 3); [lia|]. reflexivity.
Qed.

(** The guard lets through exactly the truthy values, functions or not. *)
Lemma addGesture_registers_iff (args : list value) (st : state) :
  truthy (callback_of args) = true ↔
  callbackIdCounter (addGesture args st).1.2 = callbackIdCounter st + 1.
Proof.
  split.
  - intros T. rewrite (addGesture_accepts _ _ T). reflexivity.
  - destruct (truthy (callback_of args)) eqn:T; [reflexivity|].
    rewrite (addGesture_rejects _ _ T). cbn. lia.
Qed.

(** ** Gesture parameters *)









(** ** Identifier allocation over arbitrary histories *)

Lemma bind_mret_state {A B} (c : M A) (b : B) (st : state) :
  ((c;; mret b) st).1.2 = (c st).1.2.
Proof.
  unfold mbind, M_bind. destruct (c st) as [[[a|e] st1] t1]; reflexivity.
Qed.

Lemma performCallback_state (gestureId : Z) (rest : list value) (st : state) :
  (performCallback gestureId rest st).1.2 = st.
Proof.
  unfold performCallback, table_load, mbind, M_bind.
  destruct (default VUndefined (callbackTable st !! gestureId)) as
    [| |[]|z|s|f|o|l] eqn:E; cbn; try reflexivity.
  - destruct (z =? 0); reflexivity.
  - destruct (String.eqb s ""); reflexivity.
  - destruct (default VUndefined (o !! "apply")); reflexivity.
Qed.

Lemma onreadystatechange_state (r : request) (readyState status : Z)
    (responseText : string) (st : state) :
  (onreadystatechange r readyState status responseText st).1.2 = st.
Proof.
  unfold onreadystatechange.
  destruct (readyState =? 4); [|reflexivity].
  destruct (status =? 200).
  - destruct (truthy (req_win r)); [|reflexivity].
    destruct (req_win r); reflexivity.
  - destruct (truthy (req_fail r)); [|reflexivity].
    destruct (req_fail r); reflexivity.
Qed.

(** What one call does to the registry: an allocation takes the next
    number and binds it to the handler it was given; every other call keeps
    the counter and can only remove bindings. *)
Lemma take_step_effect (c : call) (st : state) :
  match issued (take_step c st) with
  | Some id =>
      id = callbackIdCounter st + 1
      ∧ step_state (take_step c st) =
          {| callbackIdCounter := id;
             callbackTable :=
               <[id := registered_handler c]> (callbackTable st) |}
  | None =>
      callbackIdCounter (step_state (take_step c st)) = callbackIdCounter st
      ∧ callbackTable (step_state (take_step c st)) ⊆ callbackTable st
  end.
Proof.
  destruct c; try (split; [reflexivity | cbn; try reflexivity]).
  - (* addGesture *)
    unfold take_step, exec.
    destruct (truthy (callback_of args)) eqn:T.
    + rewrite (addGesture_accepts _ _ T). cbn. split; reflexivity.
    + rewrite (addGesture_rejects _ _ T). cbn. split; reflexivity.
  - (* removeGesture *) apply delete_subseteq.
  - (* removeCallback *) apply delete_subseteq.
  - (* performCallback *)
    assert (E : step_state (take_step (CallPerformCallback gestureId rest) st)
                = st).
    { unfold take_step, exec.
      pose proof (bind_mret_state (performCallback gestureId rest)
                    VUndefined st) as B.
      rewrite performCallback_state in B.
      destruct ((performCallback gestureId rest;; mret VUndefined) st)
        as [[r st1] t1]. exact B. }
    assert (I : issued (take_step (CallPerformCallback gestureId rest) st)
                = None).
    { unfold take_step, exec.
      destruct ((performCallback gestureId rest;; mret VUndefined) st)
        as [[r st1] t1]. reflexivity. }
    rewrite I, E. split; reflexivity.
  - (* onreadystatechange *)
    assert (E : step_state
                  (take_step (CallReadyStateChange r readyState status
                                responseText) st) = st).
    { unfold take_step, exec.
      pose proof (bind_mret_state
                    (onreadystatechange r readyState status responseText)
                    VUndefined st) as B.
      rewrite onreadystatechange_state in B.
      destruct ((onreadystatechange r readyState status responseText;;
                 mret VUndefined) st) as [[r0 st1] t1]. exact B. }
    assert (I : issued
                  (take_step (CallReadyStateChange r readyState status
                                responseText) st) = None).
    { unfold take_step, exec.
      destruct ((onreadystatechange r readyState status responseText;;
                 mret VUndefined) st) as [[r0 st1] t1]. reflexivity. }
    rewrite I, E. split; reflexivity.
Qed.

Lemma take_step_counter_mono (c : call) (st : state) :
  callbackIdCounter st ≤ callbackIdCounter (step_state (take_step c st)).
Proof.
  pose proof (take_step_effect c st) as E.
  destruct (issued (take_step c st)) as [id|].
  - destruct E as [-> ->]. cbn. lia.
  - destruct E as [-> _]. lia.
Qed.












(** ** Removing a gesture *)



(** * Further properties *)

(** ** The wire format *)


Lemma append_cons (c : ascii) (a b : string) :
  String c a +:+ b = String c (a +:+ b).
Proof. reflexivity. Qed.

Lemma append_empty_l (b : string) : "" +:+ b = b.
Proof. reflexivity. Qed.

(** The closing delimiter can always be taken off. *)
Lemma append_delimiter_inj (a b : string) : a +:+ "@" = b +:+ "@" → a = b.
Proof.
  revert b. induction a as [|c a IH]; intros [|c' b] E;
    rewrite ?append_cons, ?append_empty_l in E.
  - reflexivity.
  - injection E as _ E. destruct b; discriminate.
  - injection E as _ E. destruct a; discriminate.
  - injection E as -> E. f_equal. exact (IH b E).
Qed.


(** X2: the delimiter is not escaped.  For all strings [a], [b], [c],
    [enableSides(a + '@' + b, c)] and [enableSides(a, b + '@' + c)], whose
    first arguments differ, send the same request. *)
Theorem delimiter_not_escaped (a b c : string) (win fail : value)
    (st : state) :
  a +:+ "@" +:+ b ≠ a
  ∧ enableSides (VString (a +:+ "@" +:+ b)) (VString c) win fail st =
      enableSides (VString a) (VString (b +:+ "@" +:+ c)) win fail st.
Proof.
  split.
  - induction a as [|x a IH]; rewrite ?append_cons, ?append_empty_l.
    + discriminate.
    + intros [= E]. exact (IH E).
  - cbv [enableSides callNative emit to_string].
    rewrite !append_assoc. reflexivity.
Qed.

(** X3: the message of a [log] command can be read back whatever it
    contains: two [log] calls on strings that send the same request have
    the same message. *)
Theorem log_message_recoverable (m m' : string) (win fail win' fail' : value)
    (st st' : state) :
  (log (VString m) win fail st).2 = (log (VString m') win' fail' st').2 →
  m = m'.
Proof.
  intros E. cbv [log callNative emit snd to_string] in E.
  injection E as E _ _. rewrite !append_empty_l in E.
  exact (append_delimiter_inj _ _ E).
Qed.

Lemma log_message_recoverable_witness : "a@b"%string = "a@b"%string.
Proof.
  exact (log_message_recoverable "a@b" "a@b" VUndefined VUndefined
           VUndefined VUndefined initial initial eq_refl).
Defined.

(** ** The registry, call by call *)

(** The state a call leaves, whether it returns or throws: an accepted
    [addGesture] and every [addCallback] bind the next number, the two
    removals delete their identifier, and nothing else changes anything. *)
Lemma take_step_state (c : call) (st : state) :
  step_state (take_step c st) =
    match c with
    | CallAddGesture args =>
        if truthy (callback_of args)
        then {| callbackIdCounter := callbackIdCounter st + 1;
                callbackTable :=
                  <[callbackIdCounter st + 1 := callback_of args]>
                    (callbackTable st) |}
        else st
    | CallAddCallback f =>
        {| callbackIdCounter := callbackIdCounter st + 1;
           callbackTable :=
             <[callbackIdCounter st + 1 := f]> (callbackTable st) |}
    | CallRemoveGesture id | CallRemoveCallback id =>
        {| callbackIdCounter := callbackIdCounter st;
           callbackTable := delete id (callbackTable st) |}
    | _ => st
    end.
Proof.
  destruct c; try reflexivity.
  - unfold take_step, exec. destruct (truthy (callback_of args)) eqn:T.
    + rewrite (addGesture_accepts _ _ T). reflexivity.
    + rewrite (addGesture_rejects _ _ T). reflexivity.
  - unfold take_step, exec.
    pose proof (bind_mret_state (performCallback gestureId rest)
                  VUndefined st) as B.
    rewrite performCallback_state in B.
    destruct ((performCallback gestureId rest;; mret VUndefined) st)
      as [[r st1] t1]. exact B.
  - unfold take_step, exec.
    pose proof (bind_mret_state
                  (onreadystatechange r readyState status responseText)
                  VUndefined st) as B.
    rewrite onreadystatechange_state in B.
    destruct ((onreadystatechange r readyState status responseText;;
               mret VUndefined) st) as [[r0 st1] t1]. exact B.
Qed.



(** A call that is not a removal of [k] keeps the binding of an identifier
    [k] already handed out. *)
Lemma take_step_keeps_binding (c : call) (st : state) (k : Z) (v : value) :
  removes k c = false → k ≤ callbackIdCounter st →
  callbackTable st !! k = Some v →
  callbackTable (step_state (take_step c st)) !! k = Some v.
Proof.
  intros R Hk H. rewrite take_step_state.
  destruct c; try exact H; cbn in R |- *.
  - destruct (truthy (callback_of args)); [|exact H].
    cbn. rewrite lookup_insert_ne by lia. exact H.
  - apply bool_decide_eq_false in R. rewrite lookup_delete_ne by exact R.
    exact H.
  - rewrite lookup_insert_ne by lia. exact H.
  - apply bool_decide_eq_false in R. rewrite lookup_delete_ne by exact R.
    exact H.
Qed.

Lemma run_keeps_binding (cs : list call) (st : state) (j : nat) (sj : step)
    (k : Z) (v : value) :
  k ≤ callbackIdCounter st → callbackTable st !! k = Some v →
  run cs st !! j = Some sj →
  (∀ (n : nat) (c : call),
     (n ≤ j)%nat → cs !! n = Some c → removes k c = false) →
  callbackTable (step_state sj) !! k = Some v.
Proof.
  revert st j. induction cs as [|c cs IH]; intros st j Hk H Hj R;
    [discriminate|].
  assert (H1 : callbackTable (step_state (take_step c st)) !! k = Some v).
  { apply take_step_keeps_binding; [|exact Hk|exact H].
    apply (R 0%nat); [lia | reflexivity]. }
  destruct j as [|j]; cbn in Hj.
  - injection Hj as <-. exact H1.
  - apply (IH (step_state (take_step c st)) j); [|exact H1|exact Hj|].
    + pose proof (take_step_counter_mono c st). lia.
    + intros n c' Hn Hc. apply (R (S n)); [lia | exact Hc].
Qed.

(** X5: a handler stays registered until it is removed.  In any history
    from the fresh registry, if step [i] issues [id] and no call after [i]
    up to step [j] is a [removeGesture] or [removeCallback] of [id], then
    after step [j] the table still binds [id] to the value given at
    step [i]. *)
Theorem handler_persists_until_removed (cs : list call) (i j : nat)
    (si sj : step) (id : Z) :
  run cs initial !! i = Some si → run cs initial !! j = Some sj →
  (i ≤ j)%nat → issued si = Some id →
  (∀ (n : nat) (c : call),
     (i < n ≤ j)%nat → cs !! n = Some c → removes id c = false) →
  callbackTable (step_state sj) !! id
    = Some (registered_handler (step_call si)).
Proof.
  generalize initial as st. revert i j.
  induction cs as [|c cs IH]; intros i j st Hi Hj Hij Hid R; [discriminate|].
  destruct i as [|i].
  - cbn in Hi. injection Hi as <-.
    pose proof (take_step_effect c st) as E. rewrite Hid in E.
    destruct E as [Eid E].
    assert (Hc : step_call (take_step c st) = c).
    { unfold take_step. destruct (exec c st) as [[r st1] t1]. reflexivity. }
    rewrite Hc.
    assert (H0 : callbackTable (step_state (take_step c st)) !! id
                 = Some (registered_handler c)).
    { rewrite E. cbn. apply lookup_insert_eq. }
    destruct j as [|j]; cbn in Hj.
    + injection Hj as <-. exact H0.
    + apply (run_keeps_binding cs (step_state (take_step c st)) j sj id);
        [|exact H0|exact Hj|].
      * rewrite E. cbn. lia.
      * intros n c' Hn Hc'. apply (R (S n)); [lia | exact Hc'].
  - destruct j as [|j]; [lia|]. cbn in Hi, Hj.
    apply (IH i j _ Hi Hj); [lia | exact Hid |].
    intros n c' Hn Hc'. apply (R (S n)); [lia | exact Hc'].
Qed.

Lemma handler_persists_until_removed_witness :
  let cb1 := VFunction (Func 1 "function (state) {}") in
  let cb2 := VFunction (Func 2 "function (state, x, y) {}") in
  let cs := [CallAddGesture [VNumber FFRGestureTap; VNumber FFRSideLeft; cb1];
             CallAddGesture [VNumber FFRGesturePan; VNumber FFRSideTop; cb2];
             CallRemoveGesture 2;
             CallRemoveAllGestures;
             CallPerformCallback 1 [VNumber 3]] in
  callbackTable (default initial (step_state <$> run cs initial !! 4%nat))
    !! 1 = Some cb1.
Proof.
  intros cb1 cb2 cs.
  refine (handler_persists_until_removed cs 0 4 _ _ 1
            eq_refl eq_refl ltac:(lia) eq_refl _).
  intros n c Hn Hc.
  destruct n as [|[|[|[|[|n]]]]]; try lia;
    cbn in Hc; injection Hc as <-; reflexivity.
Defined.

(** ** Reachable states *)






(** X7: registering and then removing gives the table back.  In a state
    whose bound identifiers have all been handed out, an accepted
    [addGesture] followed by [removeGesture] of the identifier it returned
    leaves the table as it was before, with the counter one higher; the
    same holds for [addCallback] followed by [removeCallback]. *)
Theorem register_then_remove (st : state) :
  keys_issued st →
  (∀ args : list value,
     truthy (callback_of args) = true →
     (removeGesture (callbackIdCounter st + 1) (addGesture args st).1.2).1.2
     = {| callbackIdCounter := callbackIdCounter st + 1;
          callbackTable := callbackTable st |})
  ∧ (∀ f : value,
       (removeCallback (callbackIdCounter st + 1) (addCallback f st).1.2).1.2
       = {| callbackIdCounter := callbackIdCounter st + 1;
            callbackTable := callbackTable st |}).
Proof.
  intros Inv.
  assert (F : callbackTable st !! (callbackIdCounter st + 1) = None).
  { destruct (callbackTable st !! (callbackIdCounter st + 1)) as [v|] eqn:L;
      [|reflexivity].
    pose proof (Inv _ _ L). lia. }
  split.
  - intros args T. rewrite (addGesture_accepts _ _ T).
    cbv [removeGesture removeCallback table_delete callNative emit mbind
           M_bind fst snd callbackIdCounter callbackTable].
    f_equal. rewrite delete_insert_eq. apply delete_id. exact F.
  - intros f.
    cbv [addCallback incr_callbackIdCounter table_store removeCallback
           table_delete mbind M_bind mret M_ret fst snd callbackIdCounter
           callbackTable].
    f_equal. rewrite delete_insert_eq. apply delete_id. exact F.
Qed.

Lemma register_then_remove_witness :
  let cb := VFunction (Func 1 "function (state) {}") in
  let st := {| callbackIdCounter := 3; callbackTable := {[ 2 := cb ]} |} in
  (removeGesture 4
     (addGesture [VNumber FFRGestureTap; VNumber FFRSideLeft; cb] st).1.2).1.2
  = {| callbackIdCounter := 4; callbackTable := {[ 2 := cb ]} |}.
Proof.
  intros cb st.
  refine (proj1 (register_then_remove st _)
            [VNumber FFRGestureTap; VNumber FFRSideLeft; cb] eq_refl).
  intros k v H.
  destruct (decide (k = 2)) as [->|Hne]; [cbn; lia|].
  unfold st in H. cbn [callbackTable] in H.
  rewrite lookup_singleton_ne in H by congruence. discriminate.
Defined.

(** ** Dispatch *)

(** What a dispatch returns and calls depends only on the table entry of
    its identifier. *)
Lemma performCallback_entry (k : Z) (rest : list value) (st1 st2 : state) :
  callbackTable st1 !! k = callbackTable st2 !! k →
  (performCallback k rest st1).1.1 = (performCallback k rest st2).1.1
  ∧ (performCallback k rest st1).2 = (performCallback k rest st2).2.
Proof.
  intros E. unfold performCallback, table_load, mbind, M_bind. rewrite E.
  destruct (default VUndefined (callbackTable st2 !! k)) as
    [| |[]|z|s|f|o|l]; cbn; try (split; reflexivity).
  - destruct (z =? 0); split; reflexivity.
  - destruct (String.eqb s ""); split; reflexivity.
  - destruct (default VUndefined (o !! "apply")); split; reflexivity.
Qed.

(** X8: registering or removing one identifier does not change what a
    dispatch of another does.  After [removeGesture] of [id], a dispatch of
    any [k ≠ id] completes as before and makes the same calls; after any
    [addGesture], in a state whose bound identifiers have all been handed
    out, so does a dispatch of any identifier [k] handed out before. *)
Theorem dispatch_of_other_identifiers (st : state) (k : Z)
    (rest : list value) :
  (∀ id : Z,
     k ≠ id →
     (performCallback k rest (removeGesture id st).1.2).1.1
       = (performCallback k rest st).1.1
     ∧ (performCallback k rest (removeGesture id st).1.2).2
       = (performCallback k rest st).2)
  ∧ (∀ args : list value,
       k ≤ callbackIdCounter st →
       (performCallback k rest (addGesture args st).1.2).1.1
         = (performCallback k rest st).1.1
       ∧ (performCallback k rest (addGesture args st).1.2).2
         = (performCallback k rest st).2).
Proof.
  split.
  - intros id Hne. apply performCallback_entry.
    change (removeGesture id st).1.2
      with {| callbackIdCounter := callbackIdCounter st;
              callbackTable := delete id (callbackTable st) |}.
    cbn [callbackTable]. apply lookup_delete_ne. congruence.
  - intros args Hk. apply performCallback_entry.
    destruct (truthy (callback_of args)) eqn:T.
    + rewrite (addGesture_accepts _ _ T). cbn [fst snd callbackTable].
      apply lookup_insert_ne. lia.
    + rewrite (addGesture_rejects _ _ T). reflexivity.
Qed.

Lemma dispatch_of_other_identifiers_witness :
  let cb := VFunction (Func 1 "function (state) {}") in
  let st := {| callbackIdCounter := 2;
               callbackTable := <[1 := cb]> {[ 2 := VNumber 9 ]} |} in
  (performCallback 1 [VNumber 3] (removeGesture 2 st).1.2).2
    = [Called (Func 1 "function (state) {}") [VNumber 3]]
  ∧ (performCallback 2 []
       (addGesture [VNumber FFRGestureTap; VNumber FFRSideLeft; cb] st).1.2
    ).1.1 = Throw TypeError.
Proof.
  intros cb st.
  destruct (dispatch_of_other_identifiers st 1 [VNumber 3]) as [R _].
  destruct (dispatch_of_other_identifiers st 2 []) as [_ A].
  split.
  - exact (proj2 (R 2 ltac:(lia))).
  - refine (proj1 (A [VNumber FFRGestureTap; VNumber FFRSideLeft; cb] _)).
    cbn. lia.
Defined.



(** ** Completion of requests *)

(** X10: the handler of a request calls at most one function, and only
    once the request is complete.  Whatever the ready state, the status and
    the callbacks, it leaves the registry unchanged, and its calls are
    none, or one call of [win] with the response text (ready state 4,
    status 200), or one call of [fail] with the status (ready state 4,
    another status). *)
Theorem onreadystatechange_outcomes (r : request) (readyState status : Z)
    (text : string) (st : state) :
  (onreadystatechange r readyState status text st).1.2 = st
  ∧ ((onreadystatechange r readyState status text st).2 = []
     ∨ (readyState = 4 ∧ status = 200
        ∧ ∃ w : func,
            req_win r = VFunction w
            ∧ (onreadystatechange r readyState status text st).2
              = [Called w [VString text]])
     ∨ (readyState = 4 ∧ status ≠ 200
        ∧ ∃ f : func,
            req_fail r = VFunction f
            ∧ (onreadystatechange r readyState status text st).2
              = [Called f [VNumber status]])).
Proof.
  split; [apply onreadystatechange_state|].
  unfold onreadystatechange.
  destruct (Z.eqb_spec readyState 4) as [->|_]; [|left; reflexivity].
  destruct (Z.eqb_spec status 200) as [->|Hs].
  - destruct (req_win r) as [| |[]|z|s|w|o|l]; cbn;
      try destruct (z =? 0); try destruct (String.eqb s "");
      try (left; reflexivity).
    right; left. repeat split. exists w. split; reflexivity.
  - destruct (req_fail r) as [| |[]|z|s|f|o|l]; cbn;
      try destruct (z =? 0); try destruct (String.eqb s "");
      try (left; reflexivity).
    right; right. repeat split; [exact Hs|]. exists f. split; reflexivity.
Qed.

(** X11: the gesture commands are sent without callbacks.  A request sent
    by [addGesture], [removeGesture], [removeAllGestures] or the page-load
    listener has no [win] and no [fail], so its completion with any ready
    state and status calls nothing, throws nothing and leaves the registry,
    with the handler [addGesture] stored, as it is. *)
Theorem gesture_requests_are_fire_and_forget (c : call) (st : state)
    (r : request) :
  match c with
  | CallAddGesture _ | CallRemoveGesture _ | CallRemoveAllGestures
  | CallDomLoaded => True
  | _ => False
  end →
  r ∈ requests (step_trace (take_step c st)) →
  req_win r = VUndefined ∧ req_fail r = VUndefined
  ∧ ∀ (readyState status : Z) (text : string) (st' : state),
      onreadystatechange r readyState status text st' = (Return (), st', []).
Proof.
  intros Hc Hr.
  assert (U : req_win r = VUndefined ∧ req_fail r = VUndefined).
  { destruct c; try contradiction; unfold take_step, exec in Hr.
    - destruct (truthy (callback_of args)) eqn:T.
      + rewrite (addGesture_accepts _ _ T) in Hr. cbn in Hr.
        apply list_elem_of_singleton in Hr as ->. split; reflexivity.
      + rewrite (addGesture_rejects _ _ T) in Hr. cbn in Hr.
        by apply elem_of_nil in Hr.
    - cbn in Hr. apply list_elem_of_singleton in Hr as ->. split; reflexivity.
    - cbn in Hr. apply list_elem_of_singleton in Hr as ->. split; reflexivity.
    - cbn in Hr. apply list_elem_of_singleton in Hr as ->. split; reflexivity. }
  destruct U as [Uw Uf]. split; [exact Uw|]. split; [exact Uf|].
  intros readyState status text st'. unfold onreadystatechange.
  rewrite Uw, Uf. cbn.
  destruct (readyState =? 4); [|reflexivity].
  destruct (status =? 200); reflexivity.
Qed.

Lemma gesture_requests_are_fire_and_forget_witness :
  let cb := VFunction (Func 1 "function (state) {}") in
  let r := Request "get" "fuffr-bridge@addGesture@4@4@1@"
             VUndefined VUndefined in
  onreadystatechange r 4 500 "" 
    {| callbackIdCounter := 1; callbackTable := {[ 1 := cb ]} |}
  = (Return (),
     {| callbackIdCounter := 1; callbackTable := {[ 1 := cb ]} |}, []).
Proof.
  intros cb r.
  refine (proj2 (proj2 (gesture_requests_are_fire_and_forget
            (CallAddGesture [VNumber FFRGestureTap; VNumber FFRSideLeft; cb])
            initial r I _)) 4 500 _ _).
  apply list_elem_of_here.
Defined.

(** ** Histories that never throw *)


Lemma bind_mret_trace {A B} (c : M A) (b : B) (st : state) :
  ((c;; mret b) st).2 = (c st).2.
Proof.
  unfold mbind, M_bind. destruct (c st) as [[[a|e] st1] t1]; cbn;
    [apply app_nil_r | reflexivity].
Qed.



(** Dispatching and completing a request send nothing. *)
Lemma performCallback_sends_nothing (gestureId : Z) (rest : list value)
    (st : state) :
  requests (performCallback gestureId rest st).2 = [].
Proof.
  unfold performCallback, table_load, mbind, M_bind.
  destruct (default VUndefined (callbackTable st !! gestureId)) as
    [| |[]|z|s|f|o|l]; cbn; try reflexivity.
  - destruct (z =? 0); reflexivity.
  - destruct (String.eqb s ""); reflexivity.
  - destruct (default VUndefined (o !! "apply")); reflexivity.
Qed.

Lemma onreadystatechange_sends_nothing (r : request) (readyState status : Z)
    (text : string) (st : state) :
  requests (onreadystatechange r readyState status text st).2 = [].
Proof.
  unfold onreadystatechange.
  destruct (readyState =? 4); [|reflexivity].
  destruct (status =? 200).
  - destruct (req_win r) as [| |[]|z|s|w|o|l]; cbn;
      try destruct (z =? 0); try destruct (String.eqb s ""); reflexivity.
  - destruct (req_fail r) as [| |[]|z|s|f|o|l]; cbn;
      try destruct (z =? 0); try destruct (String.eqb s ""); reflexivity.
Qed.






(** ** More on gesture parameters *)

(** The parameter text depends on the four properties only. *)
Lemma gesture_params_ext (p q : value) :
  truthy p = truthy q →
  (∀ k : string,
     k ∈ ["maximumDuration"; "minimumDuration"; "maximumDistance";
          "minimumDistance"] →
     get_prop p k = get_prop q k) →
  gesture_params p = gesture_params q.
Proof.
  intros T E. unfold gesture_params, duration_param, distance_param.
  rewrite T, !E by (repeat constructor). reflexivity.
Qed.

(** X13: the three-argument form is the four-argument form without
    parameters.  When [params] is falsy, or none of its four parameter
    properties is truthy (the empty object, or a value that is not an
    object), [addGesture(type, sides, params, cb)] does exactly what
    [addGesture(type, sides, cb)] does. *)
Theorem addGesture_without_parameters (gestureType sides params cb : value)
    (st : state) :
  truthy params = false
  ∨ (∀ k : string,
       k ∈ ["maximumDuration"; "minimumDuration"; "maximumDistance";
            "minimumDistance"] →
       truthy (get_prop params k) = false) →
  addGesture [gestureType; sides; params; cb] st =
    addGesture [gestureType; sides; cb] st.
Proof.
  intros H.
  assert (G : gesture_params params = "").
  { unfold gesture_params, duration_param, distance_param.
    destruct H as [-> | H]; [reflexivity|].
    rewrite !H by (repeat constructor).
    destruct (truthy params); reflexivity. }
  destruct (truthy cb) eqn:T.
  - rewrite !(addGesture_accepts _ st) by exact T.
    change (params_of [gestureType; sides; params; cb]) with params.
    rewrite G. reflexivity.
  - rewrite !(addGesture_rejects _ st) by exact T. reflexivity.
Qed.

Lemma addGesture_without_parameters_witness :
  let cb := VFunction (Func 1 "function (state) {}") in
  addGesture [VNumber FFRGestureTap; VNumber FFRSideLeft;
              VObject {[ "maximumDuration" := VNumber 0 ]}; cb] initial
  = addGesture [VNumber FFRGestureTap; VNumber FFRSideLeft; cb] initial
  ∧ addGesture [VNumber FFRGestureTap; VNumber FFRSideLeft; VNull; cb] initial
    = addGesture [VNumber FFRGestureTap; VNumber FFRSideLeft; cb] initial.
Proof.
  intros cb. split.
  - apply addGesture_without_parameters. right. intros k Hk.
    repeat (apply elem_of_cons in Hk as [-> | Hk]; [reflexivity|]).
    by apply elem_of_nil in Hk.
  - apply addGesture_without_parameters. left. reflexivity.
Defined.

(** X14: the two maxima share one label, and so do the two minima.  For
    every value [v], [addGesture] with [{maximumDuration: v}] does exactly
    what it does with [{maximumDistance: v}], and with
    [{minimumDuration: v}] what it does with [{minimumDistance: v}]: the
    request does not say which of the two was meant. *)
Theorem duration_and_distance_share_labels (gestureType sides cb v : value)
    (st : state) :
  addGesture [gestureType; sides; VObject {[ "maximumDuration" := v ]}; cb] st
  = addGesture [gestureType; sides; VObject {[ "maximumDistance" := v ]}; cb]
      st
  ∧ addGesture [gestureType; sides; VObject {[ "minimumDuration" := v ]}; cb]
      st
    = addGesture [gestureType; sides; VObject {[ "minimumDistance" := v ]}; cb]
        st.
Proof.
  assert (G : gesture_params (VObject {[ "maximumDuration" := v ]})
              = gesture_params (VObject {[ "maximumDistance" := v ]})
              ∧ gesture_params (VObject {[ "minimumDuration" := v ]})
                = gesture_params (VObject {[ "minimumDistance" := v ]})).
  { unfold gesture_params, duration_param, distance_param, get_prop.
    cbn [truthy].
    rewrite !lookup_singleton_eq, !lookup_singleton_ne by discriminate.
    cbn [default from_option id truthy].
    destruct (truthy v); split; cbn;
      rewrite ?append_empty_r; reflexivity. }
  destruct G as [G1 G2].
  destruct (truthy cb) eqn:T.
  - rewrite !(addGesture_accepts _ st) by exact T.
    repeat match goal with
    | |- context [params_of [gestureType; sides; ?p; cb]] =>
        change (params_of [gestureType; sides; p; cb]) with p
    end.
    rewrite G1, G2. split; reflexivity.
  - rewrite !(addGesture_rejects _ st) by exact T. split; reflexivity.
Qed.

(** X15: only the four parameter properties of [params] are read.  Two
    params objects that agree on [maximumDuration], [minimumDuration],
    [maximumDistance] and [minimumDistance] make [addGesture] do the
    same. *)
Theorem addGesture_reads_four_properties (gestureType sides cb : value)
    (o o' : gmap string value) (st : state) :
  (∀ k : string,
     k ∈ ["maximumDuration"; "minimumDuration"; "maximumDistance";
          "minimumDistance"] →
     o !! k = o' !! k) →
  addGesture [gestureType; sides; VObject o; cb] st
  = addGesture [gestureType; sides; VObject o'; cb] st.
Proof.
  intros E.
  assert (G : gesture_params (VObject o) = gesture_params (VObject o')).
  { apply gesture_params_ext; [reflexivity|].
    intros k Hk. unfold get_prop. rewrite (E k Hk). reflexivity. }
  destruct (truthy cb) eqn:T.
  - rewrite !(addGesture_accepts _ st) by exact T.
    change (params_of [gestureType; sides; VObject o; cb]) with (VObject o).
    change (params_of [gestureType; sides; VObject o'; cb])
      with (VObject o').
    rewrite G. reflexivity.
  - rewrite !(addGesture_rejects _ st) by exact T. reflexivity.
Qed.

Lemma addGesture_reads_four_properties_witness :
  let cb := VFunction (Func 1 "function (state) {}") in
  addGesture [VNumber FFRGesturePan; VNumber FFRSideTop;
              VObject (<["maximumDistance" := VNumber 3]>
                       {[ "numberOfTouches" := VNumber 2 ]}); cb] initial
  = addGesture [VNumber FFRGesturePan; VNumber FFRSideTop;
                VObject {[ "maximumDistance" := VNumber 3 ]}; cb] initial.
Proof.
  intros cb. apply addGesture_reads_four_properties. intros k Hk.
  repeat (apply elem_of_cons in Hk as [-> | Hk]; [reflexivity|]).
  by apply elem_of_nil in Hk.
Defined.

(** X16: when [addGesture] rejects.  It returns [undefined] with no effect
    exactly when it is not the case that three arguments are passed with a
    truthy third one, or four with a truthy fourth one; so every call with
    another number of arguments is rejected, whatever the arguments are. *)
Theorem addGesture_rejects_iff (args : list value) (st : state) :
  addGesture args st = (Return VUndefined, st, [])
  ↔ (length args = 3%nat → truthy (arg args 2) = false)
    ∧ (length args = 4%nat → truthy (arg args 3) = false).
Proof.
  assert (C : truthy (callback_of args) = false
              ↔ (length args = 3%nat → truthy (arg args 2) = false)
                ∧ (length args = 4%nat → truthy (arg args 3) = false)).
  { unfold callback_of.
    destruct (Nat.eqb_spec (length args) 4) as [E4|N4];
      [|destruct (Nat.eqb_spec (length args) 3) as [E3|N3]].
    - split; [intros H; split; [lia | auto] | intros [_ H]; auto].
    - split; [intros H; split; [auto | lia] | intros [H _]; auto].
    - split; [intros _; split; lia | reflexivity]. }
  rewrite <- C. split.
  - intros E. destruct (truthy (callback_of args)) eqn:T; [|reflexivity].
    rewrite (addGesture_accepts _ _ T) in E. discriminate.
  - apply addGesture_rejects.
Qed.

Lemma addGesture_rejects_iff_witness :
  let cb := VFunction (Func 1 "function (state) {}") in
  addGesture [VNumber FFRGestureTap; VNumber FFRSideLeft; cb; cb; cb] initial
    = (Return VUndefined, initial, [])
  ∧ addGesture [VNumber FFRGestureTap; cb] initial
    = (Return VUndefined, initial, []).
Proof.
  intros cb. split.
  - apply (proj2 (addGesture_rejects_iff _ initial)).
    split; cbn; intros; lia.
  - apply (proj2 (addGesture_rejects_iff _ initial)).
    split; cbn; intros; lia.
Defined.

(** ** Requests and hooks *)

(** X17: every request is a [get] on the bridge, one per call at most.
    Whatever the call and the state, the step sends no request or exactly
    one, and a request it sends has method ['get'] and a URL that starts
    with ['fuffr-bridge@']. *)
Theorem requests_go_to_the_bridge (c : call) (st : state) :
  (length (requests (step_trace (take_step c st))) ≤ 1)%nat
  ∧ ∀ r : request,
      r ∈ requests (step_trace (take_step c st)) →
      req_method r = "get"
      ∧ String.prefix "fuffr-bridge@" (req_url r) = true.
Proof.
  assert (One : ∀ (t : list event) (r0 : request),
            req_method r0 = "get" →
            String.prefix "fuffr-bridge@" (req_url r0) = true →
            t = [Sent r0] →
            (length (requests t) ≤ 1)%nat
            ∧ ∀ r, r ∈ requests t →
                   req_method r = "get"
                   ∧ String.prefix "fuffr-bridge@" (req_url r) = true).
  { intros t r0 Hm Hp ->. cbn. split; [lia|].
    intros r ->%list_elem_of_singleton. split; assumption. }
  assert (None : ∀ t : list event,
            requests t = [] →
            (length (requests t) ≤ 1)%nat
            ∧ ∀ r, r ∈ requests t →
                   req_method r = "get"
                   ∧ String.prefix "fuffr-bridge@" (req_url r) = true).
  { intros t ->. cbn. split; [lia|]. intros r Hr.
    by apply elem_of_nil in Hr. }
  destruct c;
    try (eapply One; [| |reflexivity]; reflexivity);
    try (apply None; reflexivity).
  - unfold take_step, exec. destruct (truthy (callback_of args)) eqn:T.
    + rewrite (addGesture_accepts _ _ T).
      eapply One; [| |reflexivity]; reflexivity.
    + rewrite (addGesture_rejects _ _ T). apply None; reflexivity.
  - apply None. unfold take_step, exec.
    pose proof (bind_mret_trace (performCallback gestureId rest)
                  VUndefined st) as B.
    destruct ((performCallback gestureId rest;; mret VUndefined) st)
      as [[r0 st1] t1]. cbn in B |- *. rewrite B.
    apply performCallback_sends_nothing.
  - apply None. unfold take_step, exec.
    pose proof (bind_mret_trace
                  (onreadystatechange r readyState status responseText)
                  VUndefined st) as B.
    destruct ((onreadystatechange r readyState status responseText;;
               mret VUndefined) st) as [[r0 st1] t1]. cbn in B |- *.
    rewrite B. apply onreadystatechange_sends_nothing.
Qed.

(** Each default member of [fuffr.on] returns, leaves the counter and the
    table unchanged and calls no page function; the only one that sends
    anything is [disconnected], whose request is a [log] command without
    callbacks. *)
Lemma default_hooks_are_inert (h : hook) (st : state) :
  (fire h st).1.1 = Return ()
  ∧ (fire h st).1.2 = st
  ∧ (fire h st).2 =
      match h with
      | HookDisconnected =>
          [Sent (Request "get" "fuffr-bridge@consoleLog@fuffr disconnected@"
                   VUndefined VUndefined)]
      | _ => []
      end.
Proof. destruct h; repeat split. Qed.
